(** * The chat relay worker: [apps/chat-worker/src/index.ts]

    A shallow embedding of the single route handler of the worker,
    [app.post('/api/chat', async (c) => ...)], together with the few
    JavaScript notions it relies on (truthiness, [??], [?.], destructuring,
    [try]/[catch], the [Response] constructor), and the properties of the
    relay contract proved about it.

    The handler talks to three collaborators whose code is not part of the
    worker: the request body reader [c.req.json()], the gateway binding
    [c.env.AI.gateway(id).getUrl()] and the OpenAI client's
    [chat.completions.create].  Each is represented by its outcome (a value,
    or a thrown error); the calls the handler makes are recorded in a trace,
    in program order. *)

From Stdlib Require Import String ZArith List Bool Lia.
Import ListNotations.

Local Open Scope string_scope.
Local Open Scope list_scope.
Local Open Scope Z_scope.

Local Set Warnings "-register-all".

(** ** JavaScript values *)

(** The data the handler moves around: the parsed request body, the prompt,
    the completion object and an error's [message].  Numbers are the
    integer-valued ones; an object is the list of its own properties. *)
Inductive jsval : Type :=
| JUndefined
| JNull
| JBool (b : bool)
| JNum (n : Z)
| JStr (s : string)
| JArr (items : list jsval)
| JObj (props : list (string * jsval)).

(** [ToBoolean]: what [!prompt] negates. *)
Definition truthy (v : jsval) : bool :=
  match v with
  | JUndefined | JNull => false
  | JBool b => b
  | JNum n => negb (n =? 0)
  | JStr s => negb (s =? "")%string
  | JArr _ | JObj _ => true
  end.

(** [null] or [undefined]: what [??] and [?.] test. *)
Definition nullish (v : jsval) : bool :=
  match v with
  | JUndefined | JNull => true
  | _ => false
  end.

(** [a ?? b] on values. *)
Definition coalesce (a b : jsval) : jsval :=
  if nullish a then b else a.

Fixpoint lookup_prop (key : string) (props : list (string * jsval)) : jsval :=
  match props with
  | [] => JUndefined
  | (k, v) :: rest => if (k =? key)%string then v else lookup_prop key rest
  end.

(** Reading an own data property; a value that is not an object has none
    of the names read here. *)
Definition get_prop (v : jsval) (key : string) : jsval :=
  match v with
  | JObj props => lookup_prop key props
  | _ => JUndefined
  end.

(** ** Thrown values *)

(** The [text] property of an error's [response]: anything that is not a
    function, or a method whose awaited call yields a string, or a method
    whose call throws (or whose promise rejects). *)
Inductive text_prop : Type :=
| TextNotFunction
| TextResolves (s : string)
| TextRejects.

(** The [response] object attached to an error, as far as the handler looks
    into it: [err.response.status] and [err.response.text]. *)
Record response_like : Type := mkResponseLike {
  resp_status : option Z;
  resp_text : text_prop
}.

(** A thrown value ([err: any]) as the [catch] block sees it: its [status],
    [response] and [message] properties.  [None] stands for a property that
    is [undefined] or [null]; a thrown [null], [undefined] or primitive has
    none of the three.  A [status], where present, is an integer. *)
Record thrown : Type := mkThrown {
  err_status : option Z;
  err_response : option response_like;
  err_message : jsval
}.

(** A built-in exception ([SyntaxError], [TypeError], [RangeError]): a
    message, no [status], no [response]. *)
Definition js_exception (msg : string) : thrown :=
  {| err_status := None; err_response := None; err_message := JStr msg |}.

(** ** The upstream request *)

(** The options given to [new OpenAI({...})]. *)
Record OpenAIClient : Type := mkOpenAIClient {
  apiKey : string;
  baseURL : string;
  defaultHeaders : list (string * string)
}.

Record ChatMessage : Type := mkChatMessage {
  role : string;
  content : jsval
}.

(** The argument of [client.chat.completions.create({...})]. *)
Record ChatParams : Type := mkChatParams {
  model : string;
  messages : list ChatMessage
}.

(** ** Responses *)

(** The two ways the handler builds a response: [c.json(value, status)] and
    [new Response(text, { status, headers })]. *)
Inductive http_response : Type :=
| JsonResponse (value : jsval) (status : Z)
| RawResponse (text : string) (status : Z) (headers : list (string * string)).

Definition response_status (r : http_response) : Z :=
  match r with
  | JsonResponse _ st => st
  | RawResponse _ st _ => st
  end.

(** [c.json(value)] answers 200, [c.json(value, status)] the given status. *)
Definition c_json (value : jsval) (status : option Z) : http_response :=
  JsonResponse value (match status with Some st => st | None => 200 end).

(** The statuses of the Fetch standard that forbid a body. *)
Definition null_body_status (st : Z) : bool :=
  (st =? 101) || (st =? 103) || (st =? 204) || (st =? 205) || (st =? 304).

(** ** Effects: outcomes and the trace of calls *)

Inductive result (A : Type) : Type :=
| Ok (a : A)
| Thrown (e : thrown).
Arguments Ok {A} a.
Arguments Thrown {A} e.

(** What the handler does that is visible outside it, besides its response:
    the gateway URL resolution, the chat-completion request, and the
    diagnostic log line. *)
Inductive event : Type :=
| GatewayGetUrl (gatewayId : string)
| CompletionsCreate (client : OpenAIClient) (params : ChatParams)
| ConsoleError (label : string) (err : thrown).

(** A computation: how it completes, and the calls it made on the way. *)
Definition M (A : Type) : Type := (result A * list event)%type.

Definition ret {A : Type} (a : A) : M A := (Ok a, []).

Definition bind {A B : Type} (m : M A) (k : A -> M B) : M B :=
  match m with
  | (Ok a, tr) => let (r, tr') := k a in (r, tr ++ tr')
  | (Thrown e, tr) => (Thrown e, tr)
  end.

(** A step that calls nothing outside: it only completes or throws. *)
Definition lift {A : Type} (r : result A) : M A := (r, []).

(** [await f(...)]: the call is recorded, then its outcome is taken. *)
Definition await {A : Type} (ev : event) (r : result A) : M A := (r, [ev]).

Definition emit (ev : event) : M unit := (Ok tt, [ev]).

(** [try { m } catch (err) { h err }]. *)
Definition try_catch {A : Type} (m : M A) (h : thrown -> M A) : M A :=
  match m with
  | (Ok a, tr) => (Ok a, tr)
  | (Thrown e, tr) => let (r, tr') := h e in (r, tr ++ tr')
  end.

Declare Scope relay_scope.
Delimit Scope relay_scope with relay.
Notation "x <- m ;; k" := (bind m (fun x => k))
  (at level 61, m at next level, right associativity) : relay_scope.
Notation "m ;;; k" := (bind m (fun _ => k))
  (at level 61, right associativity) : relay_scope.
Local Open Scope relay_scope.

(** ** The platform's [Response] constructor *)

(** [new Response(text, { status, headers })] with a string body, after the
    Fetch standard: a status outside 200..599 is a [RangeError], a status
    that forbids a body is a [TypeError]; otherwise the response is built
    as asked.  The status is taken as the integer it is: the conversion of
    the init dictionary's status to an unsigned short, and the leniency of
    some runtimes towards an empty text with a status that forbids a body,
    are not part of this definition.  The properties below that depend on
    the constructor refusing a status take the refusal as a hypothesis, or
    keep the status within 0..65535. *)
Definition Response_new (text : string) (status : Z)
    (headers : list (string * string)) : result http_response :=
  if (200 <=? status) && (status <=? 599) then
    if null_body_status status
    then Thrown (js_exception "Response with null body status cannot have body")
    else Ok (RawResponse text status headers)
  else Thrown (js_exception "Response status must be in the range 200 to 599").

(** ** The worker's environment and request context *)

(** The [AI] binding, as far as it is used: [AI.gateway(id).getUrl()]. *)
Record Ai : Type := mkAi {
  gateway_getUrl : string -> result string
}.

(** [type Env = { AI: Ai; AI_GATEWAY_ID: string; AI_GATEWAY_TOKEN: string }] *)
Record Env : Type := mkEnv {
  AI : Ai;
  AI_GATEWAY_ID : string;
  AI_GATEWAY_TOKEN : string
}.

(** Hono's context [c]: the outcome of [c.req.json()] and [c.env]. *)
Record Context : Type := mkContext {
  req_json : result jsval;
  env : Env
}.

(** The provider behind the OpenAI client: the outcome of
    [client.chat.completions.create(params)]. *)
Definition Upstream : Type := OpenAIClient -> ChatParams -> result jsval.

(** ** The handler *)

(** [const { prompt } = body]: destructuring [null] or [undefined] is a
    [TypeError]; any other value is read for its [prompt] property. *)
Definition destructure_prompt (body : jsval) : result jsval :=
  if nullish body
  then Thrown (js_exception "Cannot destructure property 'prompt'")
  else Ok (get_prop body "prompt").

(** [new OpenAI({ apiKey: 'unused', baseURL: baseUrl, defaultHeaders: {...} })]
    with [baseUrl] the resolved gateway URL followed by [/compat]. *)
Definition openai_client (e : Env) (url : string) : OpenAIClient :=
  {| apiKey := "unused";
     baseURL := (url ++ "/compat")%string;
     defaultHeaders :=
       [("cf-aig-authorization", ("Bearer " ++ AI_GATEWAY_TOKEN e)%string)] |}.

(** [{ model: 'google-ai-studio/gemini-2.5',
       messages: [{ role: 'user', content: prompt }] }] *)
Definition chat_params (prompt : jsval) : ChatParams :=
  {| model := "google-ai-studio/gemini-2.5";
     messages := [ {| role := "user"; content := prompt |} ] |}.

(** [err?.status ?? err?.response?.status ?? 502] *)
Definition determine_status (err : thrown) : Z :=
  match err_status err with
  | Some st => st
  | None =>
      match err_response err with
      | Some r =>
          match resp_status r with
          | Some st => st
          | None => 502
          end
      | None => 502
      end
  end.

(** [err?.response?.text] *)
Definition response_text (err : thrown) : text_prop :=
  match err_response err with
  | Some r => resp_text r
  | None => TextNotFunction
  end.

(** [typeof err?.response?.text === 'function'] *)
Definition isResponse (err : thrown) : bool :=
  match response_text err with
  | TextNotFunction => false
  | TextResolves _ | TextRejects => true
  end.

(** [await err.response.text()], once [isResponse] holds. *)
Definition call_text (err : thrown) : result string :=
  match response_text err with
  | TextResolves s => Ok s
  | TextRejects => Thrown (js_exception "text() failed")
  | TextNotFunction => Thrown (js_exception "err.response.text is not a function")
  end.

(** The body of the inner [try]: [Some r] when it returns the response [r],
    [None] when control runs off its end. *)
Definition forward_provider_error (err : thrown) : M (option http_response) :=
  let status := determine_status err in
  if isResponse err then
    text <- lift (call_text err) ;;
    r <- lift (Response_new text status
                 [("content-type", "application/json")]) ;;
    ret (Some r)
  else ret None.

(** The [catch (err: any)] block of the handler. *)
Definition on_compat_error (err : thrown) : M http_response :=
  forwarded <- try_catch (forward_provider_error err) (fun _ => ret None) ;;
  match forwarded with
  | Some r => ret r
  | None =>
      emit (ConsoleError "Compat error" err) ;;;
      ret (c_json
             (JObj [("error", coalesce (err_message err) (JStr "Upstream error"))])
             (Some 502))
  end.

(** The body of the outer [try]. *)
Definition relay (upstream : Upstream) (e : Env) (prompt : jsval)
    : M http_response :=
  url <- await (GatewayGetUrl (AI_GATEWAY_ID e))
               (gateway_getUrl (AI e) (AI_GATEWAY_ID e)) ;;
  let client := openai_client e url in
  let params := chat_params prompt in
  completion <- await (CompletionsCreate client params)
                      (upstream client params) ;;
  ret (c_json completion None).

(** [const { prompt } = await c.req.json<ChatRequest>()] *)
Definition read_prompt (c : Context) : result jsval :=
  match req_json c with
  | Ok body => destructure_prompt body
  | Thrown e => Thrown e
  end.

(** [app.post('/api/chat', async (c) => { ... })].  [Ok r] is the response
    the handler returns; [Thrown e] is an exception leaving the handler. *)
Definition handler (upstream : Upstream) (c : Context) : M http_response :=
  prompt <- lift (read_prompt c) ;;
  if negb (truthy prompt) then
    ret (c_json (JObj [("error", JStr "No prompt provided")]) (Some 400))
  else
    try_catch (relay upstream (env c) prompt) on_compat_error.

(** ** Vocabulary of the relay contract *)

(** The spec's [ErrorEnvelope]: the JSON body [{ "error": msg }] and a
    status. *)
Definition error_envelope (msg : jsval) (status : Z) : http_response :=
  JsonResponse (JObj [("error", msg)]) status.

(** The header the forwarded provider error is sent with. *)
Definition json_content_type : list (string * string) :=
  [("content-type", "application/json")].

(** The outer [try] fails with [err]: either the gateway URL resolution
    throws, or it yields [url] and the chat-completion request on the
    client built for [url] throws. *)
Inductive relay_fails (upstream : Upstream) (e : Env) (p : jsval)
    (err : thrown) : Prop :=
| GatewayResolutionError :
    gateway_getUrl (AI e) (AI_GATEWAY_ID e) = Thrown err ->
    relay_fails upstream e p err
| UpstreamCallError (url : string) :
    gateway_getUrl (AI e) (AI_GATEWAY_ID e) = Ok url ->
    upstream (openai_client e url) (chat_params p) = Thrown err ->
    relay_fails upstream e p err.

Definition is_create (ev : event) : bool :=
  match ev with
  | CompletionsCreate _ _ => true
  | _ => false
  end.

Definition is_getUrl (ev : event) : bool :=
  match ev with
  | GatewayGetUrl _ => true
  | _ => false
  end.


(** ** The claims of the spec that the handler does not meet as worded *)

(** C3 as the spec words it, at one request: whenever the error's response
    has a [text] method yielding [text], that text is forwarded with the
    determined status. *)
Definition forwards_readable_body_at (upstream : Upstream) (c : Context)
    (p : jsval) (err : thrown) (text : string) : Prop :=
  read_prompt c = Ok p ->
  truthy p = true ->
  relay_fails upstream (env c) p err ->
  response_text err = TextResolves text ->
  fst (handler upstream c) =
    Ok (RawResponse text (determine_status err)
          [("content-type", "application/json")]).

(** C4 as the spec words it, at one request: the generic envelope carries
    the determined status. *)
Definition fallback_with_determined_status_at (upstream : Upstream)
    (c : Context) (p : jsval) (err : thrown) : Prop :=
  read_prompt c = Ok p ->
  truthy p = true ->
  relay_fails upstream (env c) p err ->
  (forall text, response_text err <> TextResolves text) ->
  fst (handler upstream c) =
    Ok (JsonResponse
          (JObj [("error",
                  if nullish (err_message err)
                  then JStr "Upstream error" else err_message err)])
          (determine_status err)).

(** C5 as the spec words it, at one request: the handler always returns a
    response, and a body that fails to parse is answered 400. *)
Definition always_one_response_at (upstream : Upstream) (c : Context) : Prop :=
  exists r, fst (handler upstream c) = Ok r /\
            (forall e, req_json c = Thrown e -> response_status r = 400).


(** The status an error carries, in the words of the relay contract: the
    error's own status first, then the status nested in its response
    object, and 502 when neither is present. *)
Inductive status_of_error (err : thrown) : Z -> Prop :=
| OwnStatus (st : Z) :
    err_status err = Some st ->
    status_of_error err st
| NestedStatus (r : response_like) (st : Z) :
    err_status err = None ->
    err_response err = Some r ->
    resp_status r = Some st ->
    status_of_error err st
| DefaultStatus :
    err_status err = None ->
    (forall r, err_response err = Some r -> resp_status r = None) ->
    status_of_error err 502.

(** C8 as the spec words it, at one request: when the gateway URL
    resolution throws, no chat-completion request is issued and the failure
    is surfaced with the status extracted from the error, 502 standing in
    only when the error carries none. *)
Definition gateway_failure_surfaced_at (upstream : Upstream) (c : Context)
    (p : jsval) (err : thrown) : Prop :=
  read_prompt c = Ok p ->
  truthy p = true ->
  gateway_getUrl (AI (env c)) (AI_GATEWAY_ID (env c)) = Thrown err ->
  filter is_create (snd (handler upstream c)) = [] /\
  exists r, fst (handler upstream c) = Ok r /\
            status_of_error err (response_status r).

(** ** Sample requests and mocked collaborators *)

Module Sample.

Definition gateway_url : string := "https://gateway.example/v1/acct/chat".

Definition gateway_up : Ai := {| gateway_getUrl := fun _ => Ok gateway_url |}.

Definition gateway_down (err : thrown) : Ai :=
  {| gateway_getUrl := fun _ => Thrown err |}.

Definition worker_env (ai : Ai) : Env :=
  {| AI := ai; AI_GATEWAY_ID := "chat"; AI_GATEWAY_TOKEN := "s3cr3t" |}.

(** A request whose body decodes to [body]. *)
Definition request (ai : Ai) (body : jsval) : Context :=
  {| req_json := Ok body; env := worker_env ai |}.

(** A request whose body is not JSON. *)
Definition malformed_request (ai : Ai) : Context :=
  {| req_json := Thrown (js_exception "Unexpected token in JSON");
     env := worker_env ai |}.

Definition prompt_body (p : jsval) : jsval := JObj [("prompt", p)].

Definition upstream_returning (x : jsval) : Upstream := fun _ _ => Ok x.

Definition upstream_throwing (err : thrown) : Upstream := fun _ _ => Thrown err.

Definition a_completion : jsval :=
  JObj [("model", JStr "gemini-2.5");
        ("choices",
         JArr [JObj [("message",
                      JObj [("role", JStr "assistant");
                            ("content", JStr "Hello!")])]]);
        ("usage", JObj [("total_tokens", JNum 12)])].

(** [{ status: 429, response: { text: async () => '{...}' } }] *)
Definition rate_limited : thrown :=
  {| err_status := Some 429;
     err_response :=
       Some {| resp_status := None; resp_text := TextResolves "rate limited" |};
     err_message := JStr "429 Too Many Requests" |}.

(** [new Error('network down')] *)
Definition network_down : thrown := js_exception "network down".

(** An error with no message, no status and no response. *)
Definition bare_error : thrown :=
  {| err_status := None; err_response := None; err_message := JUndefined |}.

(** [{ status: 429, message: 'rate limited' }], no response object. *)
Definition throttled : thrown :=
  {| err_status := Some 429; err_response := None;
     err_message := JStr "rate limited" |}.

(** An error carrying a network-error response:
    [{ message: 'fetch failed', response: { status: 0, text: async () => '' } }] *)
Definition opaque_failure : thrown :=
  {| err_status := None;
     err_response := Some {| resp_status := Some 0; resp_text := TextResolves "" |};
     err_message := JStr "fetch failed" |}.

(** An error whose response body cannot be read:
    [{ status: 502, message: 'Bad gateway', response: { text() { throw ... } } }] *)
Definition unreadable : thrown :=
  {| err_status := Some 502;
     err_response := Some {| resp_status := None; resp_text := TextRejects |};
     err_message := JStr "Bad gateway" |}.

(** [new Error('')]: a message that is present and empty. *)
Definition silent : thrown := js_exception "".

End Sample.

(** Further sample errors, for the properties of the whole handler. *)
Module MoreSamples.

(** An own status that no response can carry, over a usable nested one:
    [{ status: 0, message: 'boom', response: { status: 500, text: async () => 'oops' } }] *)
Definition masked : thrown :=
  {| err_status := Some 0;
     err_response :=
       Some {| resp_status := Some 500; resp_text := TextResolves "oops" |};
     err_message := JStr "boom" |}.

(** A request against a working gateway with the prompt ["hi"]. *)
Definition hi_request : Context :=
  Sample.request Sample.gateway_up (Sample.prompt_body (JStr "hi")).

End MoreSamples.

(** * Properties *)

(** ** How the handler unfolds *)

Section Unfolding.

Variable upstream : Upstream.
Variable c : Context.

Let gateway_id : string := AI_GATEWAY_ID (env c).
Let resolved : result string := gateway_getUrl (AI (env c)) gateway_id.

(** A request that passes validation runs the outer [try]/[catch]. *)
Lemma handler_validated (p : jsval) :
  read_prompt c = Ok p -> truthy p = true ->
  handler upstream c = try_catch (relay upstream (env c) p) on_compat_error.
Proof.
  intros Hp Ht. unfold handler, bind, lift. rewrite Hp, Ht. cbn.
  destruct (try_catch _ _) as [r tr]. reflexivity.
Qed.

(** A request that fails in the first statement never gets further. *)
Lemma handler_unreadable (e : thrown) :
  read_prompt c = Thrown e -> handler upstream c = (Thrown e, []).
Proof.
  intros Hp. unfold handler, bind, lift. rewrite Hp. reflexivity.
Qed.

Lemma handler_falsy (p : jsval) :
  read_prompt c = Ok p -> truthy p = false ->
  handler upstream c =
    (Ok (error_envelope (JStr "No prompt provided") 400), []).
Proof.
  intros Hp Ht. unfold handler, bind, lift. rewrite Hp, Ht. reflexivity.
Qed.

Lemma relay_gateway_error (p : jsval) (err : thrown) :
  resolved = Thrown err ->
  relay upstream (env c) p = (Thrown err, [GatewayGetUrl gateway_id]).
Proof.
  unfold resolved, gateway_id, relay, bind, await. intros ->. reflexivity.
Qed.

Lemma relay_create_error (p : jsval) (url : string) (err : thrown) :
  resolved = Ok url ->
  upstream (openai_client (env c) url) (chat_params p) = Thrown err ->
  relay upstream (env c) p =
    (Thrown err,
     [GatewayGetUrl gateway_id;
      CompletionsCreate (openai_client (env c) url) (chat_params p)]).
Proof.
  unfold resolved, gateway_id, relay, bind, await. intros -> ->. reflexivity.
Qed.

Lemma relay_completion (p : jsval) (url : string) (x : jsval) :
  resolved = Ok url ->
  upstream (openai_client (env c) url) (chat_params p) = Ok x ->
  relay upstream (env c) p =
    (Ok (JsonResponse x 200),
     [GatewayGetUrl gateway_id;
      CompletionsCreate (openai_client (env c) url) (chat_params p)]).
Proof.
  unfold resolved, gateway_id, relay, bind, await. intros -> ->. reflexivity.
Qed.

(** The trace of the outer [try], whatever its outcome: the resolution,
    then the request if the resolution gave a URL. *)
Lemma relay_trace (p : jsval) :
  snd (relay upstream (env c) p) =
    match resolved with
    | Ok url =>
        [GatewayGetUrl gateway_id;
         CompletionsCreate (openai_client (env c) url) (chat_params p)]
    | Thrown _ => [GatewayGetUrl gateway_id]
    end.
Proof.
  unfold resolved, gateway_id, relay, bind, await.
  destruct (gateway_getUrl _ _) as [url|err]; [|reflexivity].
  destruct (upstream _ _); reflexivity.
Qed.

(** A failing outer [try] stops after one or two calls. *)
Lemma relay_fails_thrown (p : jsval) (err : thrown) :
  relay_fails upstream (env c) p err ->
  exists tr, relay upstream (env c) p = (Thrown err, tr).
Proof.
  intros [Hg | url Hg Hu].
  - eexists. apply relay_gateway_error. exact Hg.
  - eexists. apply (relay_create_error p url err Hg Hu).
Qed.

End Unfolding.

(** ** The [catch] block *)

(** The [catch] block always answers: nothing it does leaves it as an
    exception. *)
Lemma on_compat_error_responds (err : thrown) :
  exists r, fst (on_compat_error err) = Ok r.
Proof.
  unfold on_compat_error, forward_provider_error, bind, try_catch, lift, ret.
  destruct (isResponse err); [|eexists; reflexivity].
  destruct (call_text err) as [t|e]; [|eexists; reflexivity].
  destruct (Response_new _ _ _); eexists; reflexivity.
Qed.

(** The error has no [response.text] method: generic envelope, logged. *)
Lemma on_compat_error_no_text (err : thrown) :
  response_text err = TextNotFunction ->
  on_compat_error err =
    (Ok (error_envelope (coalesce (err_message err) (JStr "Upstream error")) 502),
     [ConsoleError "Compat error" err]).
Proof.
  intros H. unfold on_compat_error, forward_provider_error, isResponse.
  rewrite H. reflexivity.
Qed.

(** Reading the text fails: swallowed, generic envelope, logged. *)
Lemma on_compat_error_text_rejects (err : thrown) :
  response_text err = TextRejects ->
  on_compat_error err =
    (Ok (error_envelope (coalesce (err_message err) (JStr "Upstream error")) 502),
     [ConsoleError "Compat error" err]).
Proof.
  intros H. unfold on_compat_error, forward_provider_error, isResponse, call_text.
  rewrite H. reflexivity.
Qed.

(** The text is read but the response cannot be built: swallowed as well. *)
Lemma on_compat_error_ctor_throws (err : thrown) (text : string) (e2 : thrown) :
  response_text err = TextResolves text ->
  Response_new text (determine_status err) json_content_type = Thrown e2 ->
  on_compat_error err =
    (Ok (error_envelope (coalesce (err_message err) (JStr "Upstream error")) 502),
     [ConsoleError "Compat error" err]).
Proof.
  intros H Hr. unfold on_compat_error, forward_provider_error, isResponse, call_text.
  rewrite H. unfold json_content_type in Hr. unfold bind, lift. rewrite Hr.
  reflexivity.
Qed.

(** The text is read and the response is built: it is the answer, and
    nothing is logged. *)
Lemma on_compat_error_forwards (err : thrown) (text : string) (r : http_response) :
  response_text err = TextResolves text ->
  Response_new text (determine_status err) json_content_type = Ok r ->
  on_compat_error err = (Ok r, []).
Proof.
  intros H Hr. unfold on_compat_error, forward_provider_error, isResponse, call_text.
  rewrite H. unfold json_content_type in Hr. unfold bind, lift. rewrite Hr.
  reflexivity.
Qed.

(** The [catch] block leaves at most the log line in the trace. *)
Lemma on_compat_error_trace (err : thrown) :
  snd (on_compat_error err) = [] \/
  snd (on_compat_error err) = [ConsoleError "Compat error" err].
Proof.
  unfold on_compat_error, forward_provider_error, bind, try_catch, lift, ret.
  destruct (isResponse err); [|right; reflexivity].
  destruct (call_text err) as [t|e]; [|right; reflexivity].
  destruct (Response_new _ _ _); [left|right]; reflexivity.
Qed.

(** The trace of a validated request: the calls of the outer [try], then
    whatever the [catch] block logs. *)
Lemma handler_trace (upstream : Upstream) (c : Context) (p : jsval) :
  read_prompt c = Ok p -> truthy p = true ->
  exists logged,
    snd (handler upstream c) = snd (relay upstream (env c) p) ++ logged /\
    (logged = [] \/ exists err, logged = [ConsoleError "Compat error" err]).
Proof.
  intros Hp Ht. rewrite (handler_validated upstream c p Hp Ht).
  unfold try_catch. destruct (relay upstream (env c) p) as [[r|err] tr]; cbn.
  - exists []. split; [symmetry; apply app_nil_r | left; reflexivity].
  - destruct (on_compat_error_trace err) as [H|H];
      destruct (on_compat_error err) as [r' tr']; cbn in *; subst tr'.
    + exists []. split; [reflexivity | left; reflexivity].
    + eexists. split; [reflexivity | right; eexists; reflexivity].
Qed.

(** The outcome of a validated request whose outer [try] throws is the
    outcome of the [catch] block. *)
Lemma handler_on_failure (upstream : Upstream) (c : Context) (p : jsval)
    (err : thrown) :
  read_prompt c = Ok p -> truthy p = true ->
  relay_fails upstream (env c) p err ->
  fst (handler upstream c) = fst (on_compat_error err).
Proof.
  intros Hp Ht Hf. rewrite (handler_validated upstream c p Hp Ht).
  destruct (relay_fails_thrown upstream c p err Hf) as [tr ->].
  unfold try_catch. destruct (on_compat_error err). reflexivity.
Qed.

(** ** Validation *)

(** C1. A request whose decoded body has a falsy [prompt] (missing, the
    empty string, [null], ...) is answered 400 with the body
    [{ "error": "No prompt provided" }], and the trace is empty: neither the
    gateway URL resolution nor the chat-completion request takes place. *)
Theorem falsy_prompt_rejected (upstream : Upstream) (c : Context) (body : jsval) :
  req_json c = Ok body ->
  nullish body = false ->
  truthy (get_prop body "prompt") = false ->
  handler upstream c =
    (Ok (JsonResponse (JObj [("error", JStr "No prompt provided")]) 400), []).
Proof.
  intros Hb Hn Ht. apply handler_falsy with (p := get_prop body "prompt").
  - unfold read_prompt, destructure_prompt. rewrite Hb, Hn. reflexivity.
  - exact Ht.
Qed.

Lemma falsy_prompt_rejected_witness :
  handler (Sample.upstream_returning Sample.a_completion)
          (Sample.request Sample.gateway_up (Sample.prompt_body (JStr ""))) =
    (Ok (JsonResponse (JObj [("error", JStr "No prompt provided")]) 400), []).
Proof.
  apply (falsy_prompt_rejected _ _ (Sample.prompt_body (JStr ""))); reflexivity.
Defined.

(** The three prompts the spec names are falsy: absent, [""] and [null]. *)
Example missing_prompt_is_falsy :
  truthy (get_prop (JObj [("question", JStr "hi")]) "prompt") = false.
Proof. reflexivity. Qed.

Example empty_prompt_is_falsy :
  truthy (get_prop (Sample.prompt_body (JStr "")) "prompt") = false.
Proof. reflexivity. Qed.

Example null_prompt_is_falsy :
  truthy (get_prop (Sample.prompt_body JNull) "prompt") = false.
Proof. reflexivity. Qed.

(** ** Success path *)

(** C2. For a truthy prompt, when the gateway URL resolves and the
    chat-completion request returns [x], the handler answers 200 with [x]
    itself as the JSON body, whatever [x] is. *)
Theorem completion_passed_through (upstream : Upstream) (c : Context)
    (p : jsval) (url : string) (x : jsval) :
  read_prompt c = Ok p ->
  truthy p = true ->
  gateway_getUrl (AI (env c)) (AI_GATEWAY_ID (env c)) = Ok url ->
  upstream (openai_client (env c) url) (chat_params p) = Ok x ->
  fst (handler upstream c) = Ok (JsonResponse x 200).
Proof.
  intros Hp Ht Hg Hu. rewrite (handler_validated upstream c p Hp Ht).
  rewrite (relay_completion upstream c p url x Hg Hu). reflexivity.
Qed.

Lemma completion_passed_through_witness :
  fst (handler (Sample.upstream_returning Sample.a_completion)
               (Sample.request Sample.gateway_up (Sample.prompt_body (JStr "hi"))))
  = Ok (JsonResponse Sample.a_completion 200).
Proof.
  apply (completion_passed_through _ _ (JStr "hi") Sample.gateway_url);
    reflexivity.
Defined.

(** ** The upstream request *)

(** The chat-completion requests in the trace of a validated request. *)
Lemma handler_create_calls (upstream : Upstream) (c : Context) (p : jsval) :
  read_prompt c = Ok p ->
  truthy p = true ->
  filter is_create (snd (handler upstream c)) =
    match gateway_getUrl (AI (env c)) (AI_GATEWAY_ID (env c)) with
    | Ok url => [CompletionsCreate (openai_client (env c) url) (chat_params p)]
    | Thrown _ => []
    end.
Proof.
  intros Hp Ht.
  destruct (handler_trace upstream c p Hp Ht) as (logged & -> & Hl).
  rewrite filter_app, relay_trace.
  assert (Hnil : filter is_create logged = []).
  { destruct Hl as [-> | [err ->]]; reflexivity. }
  rewrite Hnil, app_nil_r.
  destruct (gateway_getUrl _ _); reflexivity.
Qed.

(** The gateway URL resolutions in the trace of a validated request: one,
    for the configured gateway identifier. *)
Lemma handler_getUrl_calls (upstream : Upstream) (c : Context) (p : jsval) :
  read_prompt c = Ok p ->
  truthy p = true ->
  filter is_getUrl (snd (handler upstream c)) =
    [GatewayGetUrl (AI_GATEWAY_ID (env c))].
Proof.
  intros Hp Ht.
  destruct (handler_trace upstream c p Hp Ht) as (logged & -> & Hl).
  rewrite filter_app, relay_trace.
  assert (Hnil : filter is_getUrl logged = []).
  { destruct Hl as [-> | [err ->]]; reflexivity. }
  rewrite Hnil, app_nil_r.
  destruct (gateway_getUrl _ _); reflexivity.
Qed.

(** C7. For a validated request the chat-completion requests of the trace
    are: none when the gateway URL resolution throws, and otherwise exactly
    one, made on a client with [apiKey] ['unused'], base URL the resolved URL
    followed by [/compat] and the header [cf-aig-authorization: Bearer <token>],
    for the fixed model and the single [user] message holding the prompt. *)
Theorem upstream_request_shape (upstream : Upstream) (c : Context) (p : jsval) :
  read_prompt c = Ok p ->
  truthy p = true ->
  filter is_create (snd (handler upstream c)) =
    match gateway_getUrl (AI (env c)) (AI_GATEWAY_ID (env c)) with
    | Ok url =>
        [CompletionsCreate
           {| apiKey := "unused";
              baseURL := (url ++ "/compat")%string;
              defaultHeaders :=
                [("cf-aig-authorization",
                  ("Bearer " ++ AI_GATEWAY_TOKEN (env c))%string)] |}
           {| model := "google-ai-studio/gemini-2.5";
              messages := [ {| role := "user"; content := p |} ] |}]
    | Thrown _ => []
    end.
Proof.
  intros Hp Ht. rewrite (handler_create_calls upstream c p Hp Ht).
  destruct (gateway_getUrl _ _); reflexivity.
Qed.

Lemma upstream_request_shape_witness :
  filter is_create
    (snd (handler (Sample.upstream_returning Sample.a_completion)
                  (Sample.request Sample.gateway_up
                                  (Sample.prompt_body (JStr "hi"))))) =
  [CompletionsCreate
     {| apiKey := "unused";
        baseURL := "https://gateway.example/v1/acct/chat/compat";
        defaultHeaders := [("cf-aig-authorization", "Bearer s3cr3t")] |}
     {| model := "google-ai-studio/gemini-2.5";
        messages := [ {| role := "user"; content := JStr "hi" |} ] |}].
Proof.
  apply (upstream_request_shape
           (Sample.upstream_returning Sample.a_completion)
           (Sample.request Sample.gateway_up (Sample.prompt_body (JStr "hi")))
           (JStr "hi")); reflexivity.
Defined.

(** ** Failure path *)

(** The [catch] block has two outcomes only: the provider's text forwarded
    in a response the constructor accepted, or the generic envelope with
    status 502 and a log line. *)
Lemma on_compat_error_cases (err : thrown) :
  (exists text,
      response_text err = TextResolves text /\
      on_compat_error err =
        (Ok (RawResponse text (determine_status err) json_content_type), []))
  \/
  on_compat_error err =
    (Ok (error_envelope (coalesce (err_message err) (JStr "Upstream error")) 502),
     [ConsoleError "Compat error" err]).
Proof.
  destruct (response_text err) as [|text|] eqn:Ht.
  - right. apply on_compat_error_no_text. exact Ht.
  - destruct (Response_new text (determine_status err) json_content_type)
      as [r|e2] eqn:Hr.
    + left. exists text. split; [reflexivity|].
      rewrite (on_compat_error_forwards err text r Ht Hr).
      unfold Response_new in Hr.
      destruct ((200 <=? determine_status err) && (determine_status err <=? 599));
        [|discriminate].
      destruct (null_body_status (determine_status err)); [discriminate|].
      injection Hr as <-. reflexivity.
    + right. apply (on_compat_error_ctor_throws err text e2 Ht Hr).
  - right. apply on_compat_error_text_rejects. exact Ht.
Qed.

(** The constructor accepts exactly the statuses 200..599 that allow a
    body, and then builds the response as asked. *)
Lemma Response_new_accepts (text : string) (st : Z)
    (headers : list (string * string)) :
  200 <= st <= 599 -> null_body_status st = false ->
  Response_new text st headers = Ok (RawResponse text st headers).
Proof.
  intros [Hlo Hhi] Hn. unfold Response_new.
  apply Z.leb_le in Hlo. apply Z.leb_le in Hhi.
  rewrite Hlo, Hhi, Hn. reflexivity.
Qed.

Lemma Response_new_out_of_range (text : string) (st : Z)
    (headers : list (string * string)) :
  st < 200 \/ 599 < st ->
  exists e, Response_new text st headers = Thrown e.
Proof.
  intros H. unfold Response_new.
  destruct ((200 <=? st) && (st <=? 599)) eqn:Hr; [|eexists; reflexivity].
  apply andb_true_iff in Hr. destruct Hr as [Hlo Hhi].
  apply Z.leb_le in Hlo. apply Z.leb_le in Hhi. lia.
Qed.

(** C3, as amended.  For an upstream failure whose error has a
    [response.text] method that yields [text], and whose determined status is
    one the [Response] constructor accepts (200..599, not a status that
    forbids a body), the handler answers with [text] itself, the header
    [content-type: application/json] and the determined status: the error's
    own status if present, else the one of its response, else 502. *)
Theorem readable_body_forwarded (upstream : Upstream) (c : Context)
    (p : jsval) (err : thrown) (text : string) :
  read_prompt c = Ok p ->
  truthy p = true ->
  relay_fails upstream (env c) p err ->
  response_text err = TextResolves text ->
  200 <= determine_status err <= 599 ->
  null_body_status (determine_status err) = false ->
  fst (handler upstream c) =
    Ok (RawResponse text (determine_status err)
          [("content-type", "application/json")]) /\
  (forall st, err_status err = Some st -> determine_status err = st) /\
  (forall r st, err_status err = None -> err_response err = Some r ->
                resp_status r = Some st -> determine_status err = st) /\
  (forall r, err_status err = None -> err_response err = Some r ->
             resp_status r = None -> determine_status err = 502).
Proof.
  intros Hp Ht Hf Htext Hrange Hnb. split.
  - rewrite (handler_on_failure upstream c p err Hp Ht Hf).
    rewrite (on_compat_error_forwards err text
               (RawResponse text (determine_status err) json_content_type) Htext).
    + reflexivity.
    + apply Response_new_accepts; assumption.
  - unfold determine_status. repeat split.
    + intros st ->. reflexivity.
    + intros r st -> -> ->. reflexivity.
    + intros r -> -> ->. reflexivity.
Qed.

Lemma readable_body_forwarded_witness :
  fst (handler (Sample.upstream_throwing Sample.rate_limited)
               (Sample.request Sample.gateway_up (Sample.prompt_body (JStr "hi"))))
  = Ok (RawResponse "rate limited" 429 [("content-type", "application/json")]).
Proof.
  refine (proj1 (readable_body_forwarded
                   (Sample.upstream_throwing Sample.rate_limited)
                   (Sample.request Sample.gateway_up
                                   (Sample.prompt_body (JStr "hi")))
                   (JStr "hi") Sample.rate_limited "rate limited"
                   _ _ _ _ _ _)).
  - reflexivity.
  - reflexivity.
  - apply UpstreamCallError with (url := Sample.gateway_url); reflexivity.
  - reflexivity.
  - cbn. lia.
  - reflexivity.
Defined.

(** C4, as amended.  For an upstream failure whose error has no readable
    response body (no [response.text] method, or one whose call fails), the
    handler answers with the envelope [{ "error": m }], [m] being the
    error's message, or ["Upstream error"] when the message is [null] or
    [undefined]; the status is 502 whatever status the error or its response
    carries. *)
Theorem unreadable_body_fallback (upstream : Upstream) (c : Context)
    (p : jsval) (err : thrown) :
  read_prompt c = Ok p ->
  truthy p = true ->
  relay_fails upstream (env c) p err ->
  (forall text, response_text err <> TextResolves text) ->
  fst (handler upstream c) =
    Ok (JsonResponse
          (JObj [("error",
                  if nullish (err_message err)
                  then JStr "Upstream error" else err_message err)])
          502).
Proof.
  intros Hp Ht Hf Hno.
  rewrite (handler_on_failure upstream c p err Hp Ht Hf).
  destruct (on_compat_error_cases err) as [(text & Htext & _) | ->].
  - exfalso. exact (Hno text Htext).
  - reflexivity.
Qed.

Lemma unreadable_body_fallback_witness :
  fst (handler (Sample.upstream_throwing Sample.network_down)
               (Sample.request Sample.gateway_up (Sample.prompt_body (JStr "hi"))))
  = Ok (JsonResponse (JObj [("error", JStr "network down")]) 502).
Proof.
  refine (unreadable_body_fallback
            (Sample.upstream_throwing Sample.network_down)
            (Sample.request Sample.gateway_up (Sample.prompt_body (JStr "hi")))
            (JStr "hi") Sample.network_down _ _ _ _).
  - reflexivity.
  - reflexivity.
  - apply UpstreamCallError with (url := Sample.gateway_url); reflexivity.
  - intros text H. discriminate H.
Defined.

(** The last testable property of the failure path: no message, no status. *)
Example bare_error_envelope :
  fst (handler (Sample.upstream_throwing Sample.bare_error)
               (Sample.request Sample.gateway_up (Sample.prompt_body (JStr "hi"))))
  = Ok (JsonResponse (JObj [("error", JStr "Upstream error")]) 502).
Proof. reflexivity. Qed.

(** C3 fails for [{ message: 'fetch failed', response: { status: 0,
    text: async () => '' } }]: the text is read, [new Response('', { status: 0 })]
    throws, the inner [catch] swallows it and the generic envelope is sent
    with 502. *)
Lemma readable_body_not_forwarded :
  ~ forwards_readable_body_at
      (Sample.upstream_throwing Sample.opaque_failure)
      (Sample.request Sample.gateway_up (Sample.prompt_body (JStr "hi")))
      (JStr "hi") Sample.opaque_failure "".
Proof.
  intros H.
  assert (Hr : fst (handler (Sample.upstream_throwing Sample.opaque_failure)
                      (Sample.request Sample.gateway_up
                                      (Sample.prompt_body (JStr "hi")))) =
               Ok (RawResponse "" 0 [("content-type", "application/json")])).
  { apply H; try reflexivity.
    apply UpstreamCallError with (url := Sample.gateway_url); reflexivity. }
  vm_compute in Hr. discriminate Hr.
Qed.

Example opaque_failure_response :
  handler (Sample.upstream_throwing Sample.opaque_failure)
          (Sample.request Sample.gateway_up (Sample.prompt_body (JStr "hi"))) =
    (Ok (JsonResponse (JObj [("error", JStr "fetch failed")]) 502),
     [GatewayGetUrl "chat";
      CompletionsCreate (openai_client (Sample.worker_env Sample.gateway_up)
                                       Sample.gateway_url)
                        (chat_params (JStr "hi"));
      ConsoleError "Compat error" Sample.opaque_failure]).
Proof. reflexivity. Qed.

(** C4 fails for [{ status: 429, message: 'rate limited' }] with no
    response object: the envelope is sent with 502, not 429. *)
Lemma fallback_status_not_determined :
  ~ fallback_with_determined_status_at
      (Sample.upstream_throwing Sample.throttled)
      (Sample.request Sample.gateway_up (Sample.prompt_body (JStr "hi")))
      (JStr "hi") Sample.throttled.
Proof.
  intros H.
  assert (Hr : fst (handler (Sample.upstream_throwing Sample.throttled)
                      (Sample.request Sample.gateway_up
                                      (Sample.prompt_body (JStr "hi")))) =
               Ok (JsonResponse (JObj [("error", JStr "rate limited")]) 429)).
  { apply H; try reflexivity.
    - apply UpstreamCallError with (url := Sample.gateway_url); reflexivity.
    - intros text Ht. discriminate Ht. }
  vm_compute in Hr. discriminate Hr.
Qed.

Example throttled_response :
  fst (handler (Sample.upstream_throwing Sample.throttled)
               (Sample.request Sample.gateway_up (Sample.prompt_body (JStr "hi"))))
  = Ok (JsonResponse (JObj [("error", JStr "rate limited")]) 502).
Proof. reflexivity. Qed.

(** The contract's wording of the status and the handler's [??] chain
    agree. *)
Lemma status_of_error_determine (err : thrown) (st : Z) :
  status_of_error err st <-> determine_status err = st.
Proof.
  unfold determine_status. split.
  - intros [st' Hs | r st' Hs Hr Hrs | Hs Hnone].
    + rewrite Hs. reflexivity.
    + rewrite Hs, Hr, Hrs. reflexivity.
    + rewrite Hs. destruct (err_response err) as [r|]; [|reflexivity].
      rewrite (Hnone r eq_refl). reflexivity.
  - destruct (err_status err) as [s|] eqn:Hs.
    + intros <-. apply OwnStatus. exact Hs.
    + destruct (err_response err) as [r|] eqn:Hr.
      * destruct (resp_status r) as [s|] eqn:Hrs.
        -- intros <-. apply (NestedStatus err r s Hs Hr Hrs).
        -- intros <-. apply DefaultStatus; [exact Hs|].
           intros r' Hr'. rewrite Hr in Hr'. injection Hr' as <-. exact Hrs.
      * intros <-. apply DefaultStatus; [exact Hs|].
        intros r' Hr'. rewrite Hr in Hr'. discriminate Hr'.
Qed.

(** C8 fails for a gateway resolution that throws
    [{ status: 429, message: 'rate limited' }]: the error has no response
    body to forward, and the envelope is sent with the literal 502 although
    the error carries a status. *)
Lemma gateway_error_status_not_surfaced :
  ~ gateway_failure_surfaced_at
      (Sample.upstream_returning Sample.a_completion)
      (Sample.request (Sample.gateway_down Sample.throttled)
                      (Sample.prompt_body (JStr "hi")))
      (JStr "hi") Sample.throttled.
Proof.
  intros H. destruct (H eq_refl eq_refl eq_refl) as (_ & r & Hr & Hst).
  vm_compute in Hr. injection Hr as <-.
  apply status_of_error_determine in Hst. vm_compute in Hst. discriminate Hst.
Qed.

Example gateway_error_response :
  handler (Sample.upstream_returning Sample.a_completion)
          (Sample.request (Sample.gateway_down Sample.throttled)
                          (Sample.prompt_body (JStr "hi"))) =
    (Ok (JsonResponse (JObj [("error", JStr "rate limited")]) 502),
     [GatewayGetUrl "chat"; ConsoleError "Compat error" Sample.throttled]).
Proof. reflexivity. Qed.

(** C8, as amended.  When the gateway URL resolution throws [err], no
    chat-completion request is issued and the handler answers as it does
    for a chat-completion request that throws the same [err].  The answer is
    the text of the error's response, with the header
    [content-type: application/json] and the status the error carries (its
    own, else the nested one, else 502), when that text can be read and the
    [Response] constructor accepts the status; in every other case it is the
    envelope [{ "error": m }] with status 502, [m] being the error's message
    or ["Upstream error"] when the message is [null] or [undefined]. *)
Theorem gateway_failure_as_upstream_failure (upstream : Upstream) (c : Context)
    (p : jsval) (err : thrown) :
  read_prompt c = Ok p ->
  truthy p = true ->
  gateway_getUrl (AI (env c)) (AI_GATEWAY_ID (env c)) = Thrown err ->
  filter is_create (snd (handler upstream c)) = [] /\
  (forall upstream' c' p' url,
      read_prompt c' = Ok p' -> truthy p' = true ->
      gateway_getUrl (AI (env c')) (AI_GATEWAY_ID (env c')) = Ok url ->
      upstream' (openai_client (env c') url) (chat_params p') = Thrown err ->
      fst (handler upstream' c') = fst (handler upstream c)) /\
  (forall text st,
      response_text err = TextResolves text ->
      status_of_error err st ->
      200 <= st <= 599 ->
      null_body_status st = false ->
      fst (handler upstream c) =
        Ok (RawResponse text st [("content-type", "application/json")])) /\
  ((forall text, response_text err <> TextResolves text) \/
   (exists text st e2,
       response_text err = TextResolves text /\
       status_of_error err st /\
       Response_new text st [("content-type", "application/json")] = Thrown e2) ->
   fst (handler upstream c) =
     Ok (JsonResponse
           (JObj [("error",
                   if nullish (err_message err)
                   then JStr "Upstream error" else err_message err)])
           502)).
Proof.
  intros Hp Ht Hg.
  assert (Hf : relay_fails upstream (env c) p err)
    by (apply GatewayResolutionError; exact Hg).
  split; [|split; [|split]].
  - rewrite (handler_create_calls upstream c p Hp Ht), Hg. reflexivity.
  - intros upstream' c' p' url Hp' Ht' Hg' Hu'.
    rewrite (handler_on_failure upstream c p err Hp Ht Hf).
    apply (handler_on_failure upstream' c' p' err Hp' Ht').
    apply (UpstreamCallError upstream' (env c') p' err url Hg' Hu').
  - intros text st Htext Hst Hrange Hnb.
    apply status_of_error_determine in Hst. subst st.
    rewrite (handler_on_failure upstream c p err Hp Ht Hf).
    rewrite (on_compat_error_forwards err text
               (RawResponse text (determine_status err) json_content_type) Htext).
    + reflexivity.
    + apply Response_new_accepts; assumption.
  - intros Hother.
    rewrite (handler_on_failure upstream c p err Hp Ht Hf).
    destruct Hother as [Hno | (text & st & e2 & Htext & Hst & Hctor)].
    + destruct (on_compat_error_cases err) as [(text & Htext & _) | ->].
      * exfalso. exact (Hno text Htext).
      * reflexivity.
    + apply status_of_error_determine in Hst. subst st.
      rewrite (on_compat_error_ctor_throws err text e2 Htext Hctor).
      reflexivity.
Qed.

Lemma gateway_failure_as_upstream_failure_witness :
  filter is_create
    (snd (handler (Sample.upstream_returning Sample.a_completion)
                  (Sample.request (Sample.gateway_down Sample.network_down)
                                  (Sample.prompt_body (JStr "hi"))))) = [].
Proof.
  refine (proj1 (gateway_failure_as_upstream_failure
                   (Sample.upstream_returning Sample.a_completion)
                   (Sample.request (Sample.gateway_down Sample.network_down)
                                   (Sample.prompt_body (JStr "hi")))
                   (JStr "hi") Sample.network_down _ _ _)); reflexivity.
Defined.

(** C9. When the error has a [response.text] method but reading the text
    fails, or building the response from the text fails, the handler still
    answers, with the generic envelope: the message of the first error (or
    ["Upstream error"]) and status 502.  The second failure shows nowhere
    in the response. *)
Theorem secondary_failure_swallowed (upstream : Upstream) (c : Context)
    (p : jsval) (err : thrown) :
  read_prompt c = Ok p ->
  truthy p = true ->
  relay_fails upstream (env c) p err ->
  (response_text err = TextRejects \/
   exists text e2,
     response_text err = TextResolves text /\
     Response_new text (determine_status err)
       [("content-type", "application/json")] = Thrown e2) ->
  fst (handler upstream c) =
    Ok (JsonResponse
          (JObj [("error",
                  if nullish (err_message err)
                  then JStr "Upstream error" else err_message err)])
          502).
Proof.
  intros Hp Ht Hf Hsec.
  rewrite (handler_on_failure upstream c p err Hp Ht Hf).
  destruct Hsec as [Hrej | (text & e2 & Htext & Hctor)].
  - rewrite (on_compat_error_text_rejects err Hrej). reflexivity.
  - rewrite (on_compat_error_ctor_throws err text e2 Htext Hctor). reflexivity.
Qed.

Lemma secondary_failure_swallowed_witness :
  fst (handler (Sample.upstream_throwing Sample.unreadable)
               (Sample.request Sample.gateway_up (Sample.prompt_body (JStr "hi"))))
  = Ok (JsonResponse (JObj [("error", JStr "Bad gateway")]) 502).
Proof.
  refine (secondary_failure_swallowed
            (Sample.upstream_throwing Sample.unreadable)
            (Sample.request Sample.gateway_up (Sample.prompt_body (JStr "hi")))
            (JStr "hi") Sample.unreadable _ _ _ _).
  - reflexivity.
  - reflexivity.
  - apply UpstreamCallError with (url := Sample.gateway_url); reflexivity.
  - left. reflexivity.
Defined.

(** C10. Whenever an upstream failure is answered with a JSON envelope, its
    body is [{ "error": m }] where [m] is ["Upstream error"] if the error's
    message is [null] or [undefined], and the message itself otherwise; in
    particular the empty message gives [{ "error": "" }]. *)
Theorem empty_message_forwarded (upstream : Upstream) (c : Context)
    (p : jsval) (err : thrown) (v : jsval) (st : Z) :
  read_prompt c = Ok p ->
  truthy p = true ->
  relay_fails upstream (env c) p err ->
  fst (handler upstream c) = Ok (JsonResponse v st) ->
  (nullish (err_message err) = true ->
   v = JObj [("error", JStr "Upstream error")]) /\
  (nullish (err_message err) = false ->
   v = JObj [("error", err_message err)]) /\
  (err_message err = JStr "" -> v = JObj [("error", JStr "")]).
Proof.
  intros Hp Ht Hf Hr.
  rewrite (handler_on_failure upstream c p err Hp Ht Hf) in Hr.
  destruct (on_compat_error_cases err) as [(text & _ & Hfw) | Hfb];
    [rewrite Hfw in Hr | rewrite Hfb in Hr]; cbn in Hr.
  - discriminate Hr.
  - injection Hr as <- _. unfold coalesce. repeat split.
    + intros ->. reflexivity.
    + intros ->. reflexivity.
    + intros ->. reflexivity.
Qed.

Lemma empty_message_forwarded_witness :
  (nullish (err_message Sample.silent) = true ->
   JObj [("error", JStr "")] = JObj [("error", JStr "Upstream error")]) /\
  (nullish (err_message Sample.silent) = false ->
   JObj [("error", JStr "")] = JObj [("error", err_message Sample.silent)]) /\
  (err_message Sample.silent = JStr "" ->
   JObj [("error", JStr "")] = JObj [("error", JStr "")]).
Proof.
  refine (empty_message_forwarded
            (Sample.upstream_throwing Sample.silent)
            (Sample.request Sample.gateway_up (Sample.prompt_body (JStr "hi")))
            (JStr "hi") Sample.silent (JObj [("error", JStr "")]) 502
            _ _ _ _).
  - reflexivity.
  - reflexivity.
  - apply UpstreamCallError with (url := Sample.gateway_url); reflexivity.
  - reflexivity.
Defined.

Example silent_error_envelope :
  fst (handler (Sample.upstream_throwing Sample.silent)
               (Sample.request Sample.gateway_up (Sample.prompt_body (JStr "hi"))))
  = Ok (JsonResponse (JObj [("error", JStr "")]) 502).
Proof. reflexivity. Qed.

(** ** One attempt, one outcome *)

(** C5 fails for a body that is not JSON: [c.req.json()] throws before the
    [try], and the exception leaves the handler; the handler returns no
    response. *)
Lemma malformed_body_escapes :
  ~ always_one_response_at
      (Sample.upstream_returning Sample.a_completion)
      (Sample.malformed_request Sample.gateway_up).
Proof.
  intros (r & Hr & _). vm_compute in Hr. discriminate Hr.
Qed.

Example malformed_body_outcome :
  handler (Sample.upstream_returning Sample.a_completion)
          (Sample.malformed_request Sample.gateway_up) =
    (Thrown (js_exception "Unexpected token in JSON"), []).
Proof. reflexivity. Qed.

(** The JSON literal [null] as the whole body parses, and then fails in the
    destructuring. *)
Example null_body_outcome :
  exists e,
    handler (Sample.upstream_returning Sample.a_completion)
            (Sample.request Sample.gateway_up JNull) = (Thrown e, []).
Proof. eexists. reflexivity. Qed.

(** C5, as amended.  A request whose body decodes to a value other than
    [null] gets a response from the handler, whatever fails afterwards; a
    request whose body does not parse, or parses to [null], gets none: the
    exception leaves the handler before anything is called.  In every case
    the gateway URL is resolved at most once and at most one chat-completion
    request is made. *)
Theorem one_attempt_one_outcome (upstream : Upstream) (c : Context) :
  match req_json c with
  | Ok body =>
      if nullish body
      then exists e, handler upstream c = (Thrown e, [])
      else exists r, fst (handler upstream c) = Ok r
  | Thrown e => handler upstream c = (Thrown e, [])
  end /\
  (length (filter is_getUrl (snd (handler upstream c))) <= 1)%nat /\
  (length (filter is_create (snd (handler upstream c))) <= 1)%nat.
Proof.
  destruct (read_prompt c) as [p|e] eqn:Hp.
  - assert (Hbody : exists body, req_json c = Ok body /\ nullish body = false).
    { unfold read_prompt, destructure_prompt in Hp.
      destruct (req_json c) as [body|]; [|discriminate].
      exists body. split; [reflexivity|].
      destruct (nullish body); [discriminate | reflexivity]. }
    destruct Hbody as (body & -> & ->).
    destruct (truthy p) eqn:Ht.
    + split.
      * rewrite (handler_validated upstream c p Hp Ht). unfold try_catch.
        destruct (relay upstream (env c) p) as [[r|err] tr].
        -- eexists. reflexivity.
        -- destruct (on_compat_error_responds err) as [r Hr].
           destruct (on_compat_error err) as [r' tr']. cbn in Hr.
           exists r. exact Hr.
      * rewrite (handler_getUrl_calls upstream c p Hp Ht).
        rewrite (handler_create_calls upstream c p Hp Ht).
        destruct (gateway_getUrl _ _); cbn; lia.
    + rewrite (handler_falsy upstream c p Hp Ht). cbn.
      split; [eexists; reflexivity | lia].
  - rewrite (handler_unreadable upstream c e Hp). cbn.
    split; [|lia].
    unfold read_prompt, destructure_prompt in Hp.
    destruct (req_json c) as [body|e'].
    + destruct (nullish body); [|discriminate]. eexists. reflexivity.
    + injection Hp as ->. reflexivity.
Qed.

(** ** The prompt that reaches the upstream *)


Example numeric_prompt_trace :
  handler (Sample.upstream_returning Sample.a_completion)
          (Sample.request Sample.gateway_up (Sample.prompt_body (JNum 42))) =
    (Ok (JsonResponse Sample.a_completion 200),
     [GatewayGetUrl "chat";
      CompletionsCreate
        {| apiKey := "unused";
           baseURL := "https://gateway.example/v1/acct/chat/compat";
           defaultHeaders := [("cf-aig-authorization", "Bearer s3cr3t")] |}
        {| model := "google-ai-studio/gemini-2.5";
           messages := [ {| role := "user"; content := JNum 42 |} ] |}]).
Proof. reflexivity. Qed.



(** * The handler as a whole *)

(** ** Every way a request can end *)

(** The [catch] block again, with what the constructor required of the
    status when the text was forwarded. *)
Lemma on_compat_error_outcomes (err : thrown) :
  (exists text,
      response_text err = TextResolves text /\
      200 <= determine_status err <= 599 /\
      null_body_status (determine_status err) = false /\
      on_compat_error err =
        (Ok (RawResponse text (determine_status err) json_content_type), []))
  \/
  on_compat_error err =
    (Ok (error_envelope (coalesce (err_message err) (JStr "Upstream error")) 502),
     [ConsoleError "Compat error" err]).
Proof.
  destruct (response_text err) as [|text|] eqn:Ht.
  - right. apply on_compat_error_no_text. exact Ht.
  - destruct ((200 <=? determine_status err) && (determine_status err <=? 599))
      eqn:Hr.
    + destruct (null_body_status (determine_status err)) eqn:Hn.
      * right. eapply on_compat_error_ctor_throws; [exact Ht|].
        unfold Response_new. rewrite Hr, Hn. reflexivity.
      * left. exists text.
        apply andb_true_iff in Hr. destruct Hr as [Hlo Hhi].
        apply Z.leb_le in Hlo. apply Z.leb_le in Hhi.
        split; [reflexivity|]. split; [lia|]. split; [reflexivity|].
        apply (on_compat_error_forwards err text _ Ht).
        apply Response_new_accepts; [lia | exact Hn].
    + right. eapply on_compat_error_ctor_throws; [exact Ht|].
      unfold Response_new. rewrite Hr. reflexivity.
  - right. apply on_compat_error_text_rejects. exact Ht.
Qed.

Section Classification.

Variable upstream : Upstream.
Variable c : Context.

Let gid : string := AI_GATEWAY_ID (env c).
Let resolution : result string := gateway_getUrl (AI (env c)) gid.

(** The four ways a request ends: the first statement throws; the prompt is
    falsy; the completion comes back; the outer [try] throws and the [catch]
    block either forwards the provider's text or sends the generic
    envelope and logs. *)
Lemma handler_cases :
  (exists e, read_prompt c = Thrown e /\ handler upstream c = (Thrown e, []))
  \/
  (exists p,
      read_prompt c = Ok p /\ truthy p = false /\
      handler upstream c =
        (Ok (error_envelope (JStr "No prompt provided") 400), []))
  \/
  (exists p url x,
      read_prompt c = Ok p /\ truthy p = true /\
      resolution = Ok url /\
      upstream (openai_client (env c) url) (chat_params p) = Ok x /\
      handler upstream c =
        (Ok (JsonResponse x 200),
         [GatewayGetUrl gid;
          CompletionsCreate (openai_client (env c) url) (chat_params p)]))
  \/
  (exists p err pre,
      read_prompt c = Ok p /\ truthy p = true /\
      relay_fails upstream (env c) p err /\
      (forall l e, ~ In (ConsoleError l e) pre) /\
      ((exists text,
           response_text err = TextResolves text /\
           200 <= determine_status err <= 599 /\
           null_body_status (determine_status err) = false /\
           handler upstream c =
             (Ok (RawResponse text (determine_status err) json_content_type),
              pre))
       \/
       handler upstream c =
         (Ok (error_envelope
                (coalesce (err_message err) (JStr "Upstream error")) 502),
          pre ++ [ConsoleError "Compat error" err]))).
Proof.
  destruct (read_prompt c) as [p|e] eqn:Hp.
  2:{ left. exists e. split; [reflexivity|]. apply handler_unreadable. exact Hp. }
  right. destruct (truthy p) eqn:Ht.
  2:{ left. exists p. split; [reflexivity|]. split; [exact Ht|].
      apply (handler_falsy upstream c p Hp Ht). }
  right.
  assert (Hcatch : forall err pre,
             relay upstream (env c) p = (Thrown err, pre) ->
             (exists text,
                 response_text err = TextResolves text /\
                 200 <= determine_status err <= 599 /\
                 null_body_status (determine_status err) = false /\
                 handler upstream c =
                   (Ok (RawResponse text (determine_status err)
                          json_content_type), pre))
             \/
             handler upstream c =
               (Ok (error_envelope
                      (coalesce (err_message err) (JStr "Upstream error")) 502),
                pre ++ [ConsoleError "Compat error" err])).
  { intros err pre Hrel.
    rewrite (handler_validated upstream c p Hp Ht), Hrel. unfold try_catch.
    destruct (on_compat_error_outcomes err)
      as [(text & Htext & Hrange & Hnb & ->) | ->].
    - left. exists text. rewrite app_nil_r. repeat split; try assumption.
      + apply Hrange.
      + apply Hrange.
    - right. reflexivity. }
  destruct resolution as [url|err] eqn:Hg.
  - destruct (upstream (openai_client (env c) url) (chat_params p))
      as [x|err] eqn:Hu.
    + left. exists p, url, x.
      split; [first [assumption | reflexivity]|].
      split; [first [assumption | reflexivity]|].
      split; [first [assumption | reflexivity]|].
      split; [first [assumption | reflexivity]|].
      rewrite (handler_validated upstream c p Hp Ht).
      rewrite (relay_completion upstream c p url x Hg Hu). reflexivity.
    + right. exists p, err. eexists.
      split; [first [assumption | reflexivity]|].
      split; [first [assumption | reflexivity]|].
      split; [apply (UpstreamCallError upstream (env c) p err url Hg Hu)|].
      split; [|apply Hcatch; apply (relay_create_error upstream c p url err Hg Hu)].
      intros l e [H|[H|[]]]; discriminate H.
  - right. exists p, err. eexists.
    split; [first [assumption | reflexivity]|].
      split; [first [assumption | reflexivity]|].
    split; [apply (GatewayResolutionError upstream (env c) p err Hg)|].
    split; [|apply Hcatch; apply (relay_gateway_error upstream c p err Hg)].
    intros l e [H|[]]; discriminate H.
Qed.

End Classification.

(** [ToBoolean] is false on five values only. *)
Lemma truthy_false_iff (p : jsval) :
  truthy p = false <->
  p = JUndefined \/ p = JNull \/ p = JBool false \/ p = JNum 0 \/ p = JStr "".
Proof.
  split.
  - destruct p as [| |b|n|s|items|props]; cbn; intros H.
    + left. reflexivity.
    + right. left. reflexivity.
    + right. right. left. subst b. reflexivity.
    + right. right. right. left.
      apply negb_false_iff in H. apply Z.eqb_eq in H. subst n. reflexivity.
    + right. right. right. right.
      apply negb_false_iff in H. apply String.eqb_eq in H. subst s. reflexivity.
    + discriminate H.
    + discriminate H.
  - intros [-> | [-> | [-> | [-> | ->]]]]; reflexivity.
Qed.

(** Case analysis on how the request [c] ends, with the handler's result
    rewritten everywhere. *)
Ltac handler_inv upstream c :=
  let e := fresh "e" in
  let p := fresh "p" in
  let url := fresh "url" in
  let x := fresh "x" in
  let err := fresh "err" in
  let pre := fresh "pre" in
  let text := fresh "text" in
  let Hp := fresh "Hp" in
  let Ht := fresh "Ht" in
  let Hg := fresh "Hg" in
  let Hu := fresh "Hu" in
  let Hf := fresh "Hf" in
  let Hpre := fresh "Hpre" in
  let Htext := fresh "Htext" in
  let Hrange := fresh "Hrange" in
  let Hnb := fresh "Hnb" in
  let Hh := fresh "Hh" in
  destruct (handler_cases upstream c)
    as [(e & Hp & Hh)
       | [(p & Hp & Ht & Hh)
         | [(p & url & x & Hp & Ht & Hg & Hu & Hh)
           | (p & err & pre & Hp & Ht & Hf & Hpre
              & [(text & Htext & Hrange & Hnb & Hh) | Hh])]]];
  rewrite Hh in *; cbn [fst snd] in *.

(** ** Bodies that are not objects *)

(** X1. A body that decodes to something other than an object or [null]
    (an array, a number, a string, a boolean) has no [prompt] to
    destructure: it is answered 400 [{ "error": "No prompt provided" }] and
    nothing is called. *)
Theorem non_object_body_rejected (upstream : Upstream) (c : Context)
    (body : jsval) :
  req_json c = Ok body ->
  nullish body = false ->
  (forall props, body <> JObj props) ->
  handler upstream c =
    (Ok (JsonResponse (JObj [("error", JStr "No prompt provided")]) 400), []).
Proof.
  intros Hb Hn Hobj.
  apply (handler_falsy upstream c (get_prop body "prompt")).
  - unfold read_prompt, destructure_prompt. rewrite Hb, Hn. reflexivity.
  - destruct body; try reflexivity. exfalso. exact (Hobj props eq_refl).
Qed.

Lemma non_object_body_rejected_witness :
  handler (Sample.upstream_returning Sample.a_completion)
          (Sample.request Sample.gateway_up (JArr [JStr "hi"])) =
    (Ok (JsonResponse (JObj [("error", JStr "No prompt provided")]) 400), []).
Proof.
  refine (non_object_body_rejected _ _ (JArr [JStr "hi"]) _ _ _).
  - reflexivity.
  - reflexivity.
  - intros props H. discriminate H.
Defined.

(** ** The diagnostic log *)

(** What the constructor builds, when it builds, is the response asked
    for. *)
Lemma Response_new_ok_inv (text : string) (st : Z)
    (headers : list (string * string)) (r : http_response) :
  Response_new text st headers = Ok r -> r = RawResponse text st headers.
Proof.
  unfold Response_new.
  destruct ((200 <=? st) && (st <=? 599)); [|discriminate].
  destruct (null_body_status st); [discriminate|].
  intros H. injection H as <-. reflexivity.
Qed.

(** The outer [try] throws one error at most. *)
Lemma relay_fails_unique (upstream : Upstream) (c : Context) (p : jsval)
    (err1 err2 : thrown) :
  relay_fails upstream (env c) p err1 ->
  relay_fails upstream (env c) p err2 ->
  err1 = err2.
Proof.
  intros H1 H2.
  destruct (relay_fails_thrown upstream c p err1 H1) as [tr1 E1].
  destruct (relay_fails_thrown upstream c p err2 H2) as [tr2 E2].
  rewrite E1 in E2. injection E2 as -> _. reflexivity.
Qed.

(** The [catch] block by what the constructor does: it returns what the
    constructor built and logs nothing, or it logs and sends the generic
    envelope because there was no text to read or the constructor threw. *)
Lemma on_compat_error_log_cases (err : thrown) :
  (exists text r,
      response_text err = TextResolves text /\
      Response_new text (determine_status err) json_content_type = Ok r /\
      on_compat_error err = (Ok r, []))
  \/
  ((forall text,
       response_text err = TextResolves text ->
       exists e2,
         Response_new text (determine_status err) json_content_type
           = Thrown e2) /\
   on_compat_error err =
     (Ok (error_envelope (coalesce (err_message err) (JStr "Upstream error")) 502),
      [ConsoleError "Compat error" err])).
Proof.
  destruct (response_text err) as [|text|] eqn:Ht.
  - right. split; [intros text H; discriminate H|].
    apply on_compat_error_no_text. exact Ht.
  - destruct (Response_new text (determine_status err) json_content_type)
      as [r|e2] eqn:Hr.
    + left. exists text, r. split; [reflexivity|]. split; [exact Hr|].
      apply (on_compat_error_forwards err text r Ht Hr).
    + right. split.
      * intros text' H. injection H as <-. exists e2. exact Hr.
      * apply (on_compat_error_ctor_throws err text e2 Ht Hr).
  - right. split; [intros text H; discriminate H|].
    apply on_compat_error_text_rejects. exact Ht.
Qed.

(** The whole result of a validated request whose outer [try] throws. *)
Lemma handler_failure_result (upstream : Upstream) (c : Context) (p : jsval)
    (err : thrown) :
  read_prompt c = Ok p -> truthy p = true ->
  relay_fails upstream (env c) p err ->
  exists pre,
    (forall l e, ~ In (ConsoleError l e) pre) /\
    pre <> [] /\
    handler upstream c =
      (fst (on_compat_error err), pre ++ snd (on_compat_error err)).
Proof.
  intros Hp Ht Hf. rewrite (handler_validated upstream c p Hp Ht).
  destruct Hf as [Hg | url Hg Hu].
  - rewrite (relay_gateway_error upstream c p err Hg). unfold try_catch.
    destruct (on_compat_error err) as [r tr]. eexists.
    split; [|split; [|reflexivity]].
    + intros l e [H|[]]. discriminate H.
    + discriminate.
  - rewrite (relay_create_error upstream c p url err Hg Hu). unfold try_catch.
    destruct (on_compat_error err) as [r tr]. eexists.
    split; [|split; [|reflexivity]].
    + intros l e [H|[H|[]]]; discriminate H.
    + discriminate.
Qed.

(** X2. The handler writes to [console.error] exactly when the gateway
    resolution or the chat-completion request threw and the error's body
    was not forwarded: the error has no [response.text] method, reading the
    text failed, or [new Response] threw on it.  Nothing is logged for a
    rejected prompt, a returned completion, a forwarded provider error or an
    exception leaving the handler. *)
Theorem log_iff_not_forwarded (upstream : Upstream) (c : Context) :
  (exists label err, In (ConsoleError label err) (snd (handler upstream c)))
  <->
  (exists p err,
      read_prompt c = Ok p /\ truthy p = true /\
      relay_fails upstream (env c) p err /\
      forall text,
        response_text err = TextResolves text ->
        exists e2,
          Response_new text (determine_status err)
            [("content-type", "application/json")] = Thrown e2).
Proof.
  split.
  - intros (l & e' & Hin).
    destruct (handler_cases upstream c)
      as [(e & Hp & Hh)
         | [(p & Hp & Ht & Hh)
           | [(p & url & x & Hp & Ht & Hg & Hu & Hh)
             | (p & err & pre & Hp & Ht & Hf & Hpre & _)]]].
    + rewrite Hh in Hin. destruct Hin.
    + rewrite Hh in Hin. destruct Hin.
    + rewrite Hh in Hin. destruct Hin as [H | [H | []]]; discriminate H.
    + exists p, err. split; [exact Hp|]. split; [exact Ht|]. split; [exact Hf|].
      destruct (handler_failure_result upstream c p err Hp Ht Hf)
        as (pre' & Hpre' & _ & Hh).
      destruct (on_compat_error_log_cases err)
        as [(text & r & _ & _ & Hfw) | (Hthrows & _)].
      * exfalso. rewrite Hh, Hfw in Hin. cbn in Hin. rewrite app_nil_r in Hin.
        exact (Hpre' l e' Hin).
      * exact Hthrows.
  - intros (p & err & Hp & Ht & Hf & Hthrows).
    destruct (handler_failure_result upstream c p err Hp Ht Hf)
      as (pre & _ & _ & Hh).
    destruct (on_compat_error_log_cases err)
      as [(text & r & Htext & Hctor & _) | (_ & Hfb)].
    + exfalso. destruct (Hthrows text Htext) as [e2 He2].
      unfold json_content_type in Hctor. rewrite Hctor in He2. discriminate He2.
    + exists "Compat error", err. rewrite Hh, Hfb. cbn.
      apply in_or_app. right. left. reflexivity.
Qed.

(** X3. What is logged is one line, the last event of the request: the
    label ["Compat error"] and the very error the outer [try] threw, and the
    response is then the generic envelope for that error. *)
Theorem logged_error_is_thrown_error (upstream : Upstream) (c : Context)
    (label : string) (err : thrown) :
  In (ConsoleError label err) (snd (handler upstream c)) ->
  label = "Compat error" /\
  (exists p,
      read_prompt c = Ok p /\ truthy p = true /\
      relay_fails upstream (env c) p err) /\
  (exists pre,
      snd (handler upstream c) = pre ++ [ConsoleError label err] /\
      forall l e, ~ In (ConsoleError l e) pre) /\
  fst (handler upstream c) =
    Ok (JsonResponse
          (JObj [("error",
                  if nullish (err_message err)
                  then JStr "Upstream error" else err_message err)])
          502).
Proof.
  intros Hin. handler_inv upstream c.
  - destruct Hin.
  - destruct Hin.
  - destruct Hin as [H | [H | []]]; discriminate H.
  - exfalso. exact (Hpre label err Hin).
  - apply in_app_or in Hin. destruct Hin as [Hin | [Heq | []]].
    + exfalso. exact (Hpre label err Hin).
    + injection Heq as <- <-.
      split; [reflexivity|].
      split; [exists p; repeat split; assumption|].
      split; [exists pre; split; [reflexivity | exact Hpre]|].
      reflexivity.
Qed.

Lemma logged_error_is_thrown_error_witness :
  fst (handler (Sample.upstream_throwing Sample.network_down)
               MoreSamples.hi_request) =
    Ok (JsonResponse (JObj [("error", JStr "network down")]) 502).
Proof.
  refine (proj2 (proj2 (proj2 (logged_error_is_thrown_error
            (Sample.upstream_throwing Sample.network_down)
            MoreSamples.hi_request "Compat error" Sample.network_down _)))).
  simpl. right. right. left. reflexivity.
Defined.

(** ** Reading a response back *)

(** X4. Every response the handler returns has one of four origins: the
    fixed 400 envelope for a falsy prompt, with nothing called; the
    completion the chat-completion request returned, with status 200, after
    exactly the two upstream calls; the response [new Response] built from
    the text of the thrown error's response, with nothing logged; or the
    generic 502 envelope for the thrown error, logged last. *)
Theorem response_provenance (upstream : Upstream) (c : Context)
    (r : http_response) :
  fst (handler upstream c) = Ok r ->
  (exists p,
      read_prompt c = Ok p /\ truthy p = false /\
      r = JsonResponse (JObj [("error", JStr "No prompt provided")]) 400 /\
      snd (handler upstream c) = [])
  \/
  (exists p url v,
      read_prompt c = Ok p /\ truthy p = true /\
      gateway_getUrl (AI (env c)) (AI_GATEWAY_ID (env c)) = Ok url /\
      upstream (openai_client (env c) url) (chat_params p) = Ok v /\
      r = JsonResponse v 200 /\
      snd (handler upstream c) =
        [GatewayGetUrl (AI_GATEWAY_ID (env c));
         CompletionsCreate (openai_client (env c) url) (chat_params p)])
  \/
  (exists p err text,
      read_prompt c = Ok p /\ truthy p = true /\
      relay_fails upstream (env c) p err /\
      response_text err = TextResolves text /\
      Response_new text (determine_status err)
        [("content-type", "application/json")] = Ok r /\
      forall l e, ~ In (ConsoleError l e) (snd (handler upstream c)))
  \/
  (exists p err pre,
      read_prompt c = Ok p /\ truthy p = true /\
      relay_fails upstream (env c) p err /\
      r = JsonResponse
            (JObj [("error",
                    if nullish (err_message err)
                    then JStr "Upstream error" else err_message err)])
            502 /\
      snd (handler upstream c) = pre ++ [ConsoleError "Compat error" err]).
Proof.
  intros H.
  destruct (handler_cases upstream c)
    as [(e & Hp & Hh)
       | [(p & Hp & Ht & Hh)
         | [(p & url & x & Hp & Ht & Hg & Hu & Hh)
           | (p & err & pre & Hp & Ht & Hf & Hpre & _)]]].
  - rewrite Hh in H. discriminate H.
  - left. exists p. rewrite Hh in *. cbn in H. injection H as <-.
    repeat split; assumption.
  - right. left. exists p, url, x. rewrite Hh in *. cbn in H.
    injection H as <-. repeat split; assumption.
  - right. right.
    destruct (handler_failure_result upstream c p err Hp Ht Hf)
      as (pre' & Hpre' & _ & Hh).
    rewrite Hh in *. cbn [fst snd] in *.
    destruct (on_compat_error_log_cases err)
      as [(text & r' & Htext & Hctor & Hfw) | (_ & Hfb)].
    + left. exists p, err, text. rewrite Hfw in *. cbn in H.
      injection H as <-. cbn [snd]. rewrite app_nil_r.
      repeat split; assumption.
    + right. exists p, err, pre'. rewrite Hfb in *. cbn in H.
      injection H as <-. repeat split; assumption.
Qed.

Lemma response_provenance_witness :
  (exists p,
      read_prompt MoreSamples.hi_request = Ok p /\ truthy p = false /\
      RawResponse "rate limited" 429 [("content-type", "application/json")] =
        JsonResponse (JObj [("error", JStr "No prompt provided")]) 400 /\
      snd (handler (Sample.upstream_throwing Sample.rate_limited)
                   MoreSamples.hi_request) = [])
  \/
  (exists p url v,
      read_prompt MoreSamples.hi_request = Ok p /\ truthy p = true /\
      gateway_getUrl (AI (env MoreSamples.hi_request))
                     (AI_GATEWAY_ID (env MoreSamples.hi_request)) = Ok url /\
      Sample.upstream_throwing Sample.rate_limited
        (openai_client (env MoreSamples.hi_request) url) (chat_params p)
        = Ok v /\
      RawResponse "rate limited" 429 [("content-type", "application/json")] =
        JsonResponse v 200 /\
      snd (handler (Sample.upstream_throwing Sample.rate_limited)
                   MoreSamples.hi_request) =
        [GatewayGetUrl (AI_GATEWAY_ID (env MoreSamples.hi_request));
         CompletionsCreate (openai_client (env MoreSamples.hi_request) url)
                           (chat_params p)])
  \/
  (exists p err text,
      read_prompt MoreSamples.hi_request = Ok p /\ truthy p = true /\
      relay_fails (Sample.upstream_throwing Sample.rate_limited)
                  (env MoreSamples.hi_request) p err /\
      response_text err = TextResolves text /\
      Response_new text (determine_status err)
        [("content-type", "application/json")] =
        Ok (RawResponse "rate limited" 429
              [("content-type", "application/json")]) /\
      forall l e,
        ~ In (ConsoleError l e)
             (snd (handler (Sample.upstream_throwing Sample.rate_limited)
                           MoreSamples.hi_request)))
  \/
  (exists p err pre,
      read_prompt MoreSamples.hi_request = Ok p /\ truthy p = true /\
      relay_fails (Sample.upstream_throwing Sample.rate_limited)
                  (env MoreSamples.hi_request) p err /\
      RawResponse "rate limited" 429 [("content-type", "application/json")] =
        JsonResponse
          (JObj [("error",
                  if nullish (err_message err)
                  then JStr "Upstream error" else err_message err)])
          502 /\
      snd (handler (Sample.upstream_throwing Sample.rate_limited)
                   MoreSamples.hi_request) =
        pre ++ [ConsoleError "Compat error" err]).
Proof.
  apply (response_provenance
           (Sample.upstream_throwing Sample.rate_limited)
           MoreSamples.hi_request
           (RawResponse "rate limited" 429
              [("content-type", "application/json")])).
  reflexivity.
Defined.

(** X5. For a body whose prompt can be read, the handler calls nothing at
    all exactly when the prompt is one of five values: [undefined] (no
    [prompt] property), [null], [false], [0] and [""]; the answer is then
    400 [{ "error": "No prompt provided" }].  Any other prompt starts the
    gateway URL resolution. *)
Theorem no_call_iff_falsy (upstream : Upstream) (c : Context) (p : jsval) :
  read_prompt c = Ok p ->
  (snd (handler upstream c) = [] <->
   (p = JUndefined \/ p = JNull \/ p = JBool false \/ p = JNum 0 \/
    p = JStr "")) /\
  (p = JUndefined \/ p = JNull \/ p = JBool false \/ p = JNum 0 \/ p = JStr "" ->
   fst (handler upstream c) =
     Ok (JsonResponse (JObj [("error", JStr "No prompt provided")]) 400)).
Proof.
  intros Hp. rewrite <- truthy_false_iff. split; [split|].
  - intros Hnil. destruct (truthy p) eqn:Ht; [|reflexivity].
    destruct (handler_trace upstream c p Hp Ht) as (logged & Htr & _).
    rewrite Hnil, relay_trace in Htr.
    destruct (gateway_getUrl _ _); discriminate Htr.
  - intros Ht. rewrite (handler_falsy upstream c p Hp Ht). reflexivity.
  - intros Ht. rewrite (handler_falsy upstream c p Hp Ht). reflexivity.
Qed.

Lemma no_call_iff_falsy_witness :
  fst (handler (Sample.upstream_returning Sample.a_completion)
               (Sample.request Sample.gateway_up
                               (Sample.prompt_body (JBool false)))) =
    Ok (JsonResponse (JObj [("error", JStr "No prompt provided")]) 400).
Proof.
  refine (proj2 (no_call_iff_falsy
            (Sample.upstream_returning Sample.a_completion)
            (Sample.request Sample.gateway_up (Sample.prompt_body (JBool false)))
            (JBool false) _) _).
  - reflexivity.
  - right. right. left. reflexivity.
Defined.

(** ** Statuses *)

(** X7. Whatever happens, a response the handler returns has a status in
    200..599. *)
Theorem response_status_in_range (upstream : Upstream) (c : Context)
    (r : http_response) :
  fst (handler upstream c) = Ok r ->
  200 <= response_status r <= 599.
Proof.
  intros H. handler_inv upstream c; try discriminate H; injection H as <-; cbn.
  - lia.
  - lia.
  - exact Hrange.
  - lia.
Qed.

Lemma response_status_in_range_witness :
  200 <= response_status
           (RawResponse "rate limited" 429 [("content-type", "application/json")])
      <= 599.
Proof.
  exact (response_status_in_range
           (Sample.upstream_throwing Sample.rate_limited)
           MoreSamples.hi_request
           (RawResponse "rate limited" 429
              [("content-type", "application/json")])
           eq_refl).
Defined.

(** X8. An error's own [status], once present (an integer in 0..65535), is
    the only status looked at: the response carries it or 502, and the
    status of the error's [response] object plays no part.  An own status
    below 200 or above 599 always ends in the generic 502 envelope, even
    when the nested status and the body could have been forwarded. *)
Theorem own_status_masks_nested (upstream : Upstream) (c : Context)
    (p : jsval) (err : thrown) (s : Z) (r : http_response) :
  read_prompt c = Ok p ->
  truthy p = true ->
  relay_fails upstream (env c) p err ->
  err_status err = Some s ->
  0 <= s <= 65535 ->
  fst (handler upstream c) = Ok r ->
  (response_status r = s \/ response_status r = 502) /\
  (s < 200 \/ 599 < s ->
   r = JsonResponse
         (JObj [("error",
                 if nullish (err_message err)
                 then JStr "Upstream error" else err_message err)])
         502).
Proof.
  intros Hp Ht Hf Hs _ Hr.
  rewrite (handler_on_failure upstream c p err Hp Ht Hf) in Hr.
  assert (Hd : determine_status err = s)
    by (unfold determine_status; rewrite Hs; reflexivity).
  destruct (on_compat_error_outcomes err)
    as [(text & _ & Hrange & _ & Hfw) | Hfb];
    [rewrite Hfw in Hr | rewrite Hfb in Hr]; cbn in Hr; injection Hr as <-.
  - rewrite Hd in *. split; [left; reflexivity | intros Hout; lia].
  - split; [right; reflexivity | intros _; reflexivity].
Qed.

Lemma own_status_masks_nested_witness :
  JsonResponse (JObj [("error", JStr "boom")]) 502 =
  JsonResponse
    (JObj [("error",
            if nullish (err_message MoreSamples.masked)
            then JStr "Upstream error" else err_message MoreSamples.masked)])
    502.
Proof.
  refine (proj2 (own_status_masks_nested
                   (Sample.upstream_throwing MoreSamples.masked)
                   MoreSamples.hi_request (JStr "hi") MoreSamples.masked 0
                   (JsonResponse (JObj [("error", JStr "boom")]) 502)
                   _ _ _ _ _ _) _).
  - reflexivity.
  - reflexivity.
  - apply UpstreamCallError with (url := Sample.gateway_url); reflexivity.
  - reflexivity.
  - lia.
  - reflexivity.
  - left. lia.
Defined.
